(** * The host-based gateway of [python_test/app.py]

    A shallow embedding of the Flask view [gateway] (and [root_gateway]) and
    of the objects it touches: the inbound request, the route collection,
    the outbound call handed to the HTTP client, and the reply handed back
    to Flask.  The libraries themselves (Flask, werkzeug, pymongo, requests)
    are not re-implemented: the embedding stops at the calls the view makes
    and records each of them in a trace. *)

From Stdlib Require Import ZArith String Ascii.
From Stdlib.Strings Require Import Byte.
From stdpp Require Import gmap strings list fin_maps.

Local Open Scope Z_scope.

(** ** Python strings *)

(** [str.rstrip(chars)] for a one-character [chars]: every trailing
    occurrence of [c] is removed. *)
Fixpoint rstrip (c : ascii) (s : string) : string :=
  match s with
  | EmptyString => EmptyString
  | String a s' =>
      match rstrip c s' with
      | EmptyString => if Ascii.eqb a c then EmptyString else String a EmptyString
      | r => String a r
      end
  end.

(** [str.lower()], on the ASCII letters.  The view only compares the result
    with ['host'], and no character outside [A-Z] lower-cases to one of
    [h], [o], [s], [t]. *)
Definition lower_ascii (a : ascii) : ascii :=
  let n := nat_of_ascii a in
  if (Nat.leb 65 n && Nat.leb n 90)%bool then ascii_of_nat (n + 32)%nat else a.

Fixpoint lower (s : string) : string :=
  match s with
  | EmptyString => EmptyString
  | String a s' => String (lower_ascii a) (lower s')
  end.

(** Truthiness of a [str]: non-empty. *)
Definition str_truthy (s : string) : bool :=
  match s with EmptyString => false | String _ _ => true end.

(** [n] copies of the character [c]. *)
Fixpoint str_repeat (c : ascii) (n : nat) : string :=
  match n with O => EmptyString | S n' => String c (str_repeat c n') end.

(** The last character of a string, if any. *)
Fixpoint str_last (s : string) : option ascii :=
  match s with
  | EmptyString => None
  | String a EmptyString => Some a
  | String _ s' => str_last s'
  end.

(** ** Python containers *)

(** A [dict] built by a comprehension [{k: v for k, v in l}]: the pairs are
    inserted from left to right, a later pair overwriting an earlier one
    with the same key. *)
Definition dict_comp {V} (l : list (string * V)) : gmap string V :=
  foldl (λ d kv, <[kv.1 := kv.2]> d) ∅ l.

(** werkzeug's [MultiDict]: every key carries the list of its values, in
    the order they arrived.  It is kept here as the list of [(key, value)]
    pairs in arrival order. *)
Definition MultiDict (V : Type) : Type := list (string * V).

(** [bool(d)]: a [MultiDict] is truthy when it has a key. *)
Definition multi_truthy {V} (d : MultiDict V) : bool :=
  match d with [] => false | _ :: _ => true end.

(** [d.items()]: one pair per key, carrying the FIRST value of that key,
    keys in order of first arrival. *)
Fixpoint multi_items {V} (d : MultiDict V) : list (string * V) :=
  match d with
  | [] => []
  | (k, v) :: d' => (k, v) :: filter (λ kv, kv.1 ≠ k) (multi_items d')
  end.

(** [d.get(k)]: the first value stored under [k]. *)
Fixpoint multi_get {V} (k : string) (d : MultiDict V) : option V :=
  match d with
  | [] => None
  | (k', v) :: d' => if decide (k' = k) then Some v else multi_get k d'
  end.

(** ** JSON values, as [request.json] and [jsonify] see them *)

(** A float is kept as its IEEE-754 binary64 bit pattern: the view never
    computes with a payload. *)
#[warnings="-register-all"]
Inductive json : Type :=
  | JNull
  | JBool (b : bool)
  | JInt (n : Z)
  | JFloat (bits : Z)
  | JStr (s : string)
  | JList (l : list json)
  | JDict (d : list (string * json)).

(** ** The inbound request *)

(** werkzeug's [FileStorage]: an uploaded file part. *)
Record FileStorage := {
  filename : string;
  stream : list byte;
  mimetype : string
}.

(** Python exceptions the view can meet.  [RequestException] stands for
    [requests.exceptions.RequestException] and its subclasses, with [str(e)];
    [HTTPException] for werkzeug's, with its status code. *)
Inductive exn : Type :=
  | RequestException (msg : string)
  | HTTPException (code : Z).

(** Flask's [request].  [headers] is werkzeug's [EnvironHeaders], a view of
    the WSGI environ dict: one value per header name.  [json_attr] is what
    reading the attribute [request.json] does: it yields the parsed payload,
    or raises a werkzeug [HTTPException] with the given status code when the
    body is not JSON.  [form] and [files] are the multipart body already
    parsed: a request whose body werkzeug refuses to parse is not among these
    records. *)
Record Request := {
  method : string;
  headers : gmap string string;
  args : MultiDict string;
  form : MultiDict string;
  files : MultiDict FileStorage;
  json_attr : Z + json
}.

(** Iterating [request.headers] yields its [(name, value)] pairs. *)
Definition headers_iter (h : gmap string string) : list (string * string) :=
  map_to_list h.

(** [request.headers.get(name)]: header names are matched without regard to
    case; [None] when the header is absent. *)
Definition headers_get (name : string) (h : gmap string string) : option string :=
  snd <$> List.find (λ kv, bool_decide (lower kv.1 = lower name)) (headers_iter h).

(** ** The route collection *)

(** A document of the routes collection. *)
Record Route := {
  host_url : string;
  target_url : string
}.

(** [routes_collection.find_one({'host_url': q})]: the first document whose
    [host_url] equals [q].  Every document carries a string [host_url], so
    the query [None] (no Host header) matches none. *)
Definition find_one (coll : list Route) (q : option string) : option Route :=
  match q with
  | None => None
  | Some h => List.find (λ r, bool_decide (host_url r = h)) coll
  end.

(** ** The outbound call *)

(** Which function of [requests] is called. *)
Inductive Verb := GET | POST | PUT | PATCH | DELETE.

(** The value of the [files] dict for one field. *)
Definition FileTuple : Type := string * list byte * string.

Definition file_tuple (f : FileStorage) : FileTuple :=
  (filename f, stream f, mimetype f).

(** A call [requests.<verb>(url, headers=..., ...)], with the keyword
    arguments as they are written at the call: [None] is a keyword that is
    not passed. *)
Record Call := {
  c_verb : Verb;
  c_url : string;
  c_headers : gmap string string;
  c_params : option (MultiDict string);
  c_data : option (MultiDict string);
  c_files : option (gmap string FileTuple);
  c_json : option json
}.

(** [requests.Response], as far as the view reads it; [r_headers] is
    [response.headers.items()]. *)
Record Response := {
  content : list byte;
  status_code : Z;
  r_headers : list (string * string)
}.

(** What the view returns to Flask. *)
Inductive Reply : Type :=
  | Jsonify (payload : json) (status : Z)
  | Relay (body : list byte) (status : Z) (hdrs : list (string * string)).

(** ** Effects *)

(** The view's observable actions, in the order they happen. *)
Inductive event : Type :=
  | EvFindOne (q : option string)
  | EvPrint (words : list string)
  | EvRequest (c : Call).

(** The world around the view: the documents of the collection, and what
    each call to [requests] does: it returns a response, or raises a
    [RequestException] with the given description.  The store is one that
    answers: a lookup that fails is not among these worlds. *)
Record World := {
  routes_collection : list Route;
  upstream : Call → string + Response
}.

(** A computation reads the world, appends to the trace, and returns a
    value or raises. *)
Definition M (A : Type) : Type := World → list event → (exn + A) * list event.

#[global] Instance M_ret : MRet M := λ A a _ t, (inr a, t).

#[global] Instance M_bind : MBind M := λ A B k m w t,
  match m w t with
  | (inl e, t') => (inl e, t')
  | (inr a, t') => k a w t'
  end.

Definition raise {A} (e : exn) : M A := λ _ t, (inl e, t).

(** [try: m  except requests.exceptions.RequestException as e: h e]. *)
Definition try_except {A} (m : M A) (h : string → M A) : M A :=
  λ w t, match m w t with
         | (inl (RequestException msg), t') => h msg w t'
         | r => r
         end.

Definition emit (e : event) : M unit := λ _ t, (inr tt, t ++ [e]).

(** Reading [request.json]. *)
Definition read_json (req : Request) : M json :=
  match json_attr req with
  | inl code => raise (HTTPException code)
  | inr j => mret j
  end.

Definition db_find_one (q : option string) : M (option Route) :=
  λ w t, (inr (find_one (routes_collection w) q), t ++ [EvFindOne q]).

Definition print (words : list string) : M unit := emit (EvPrint words).

Definition requests_call (c : Call) : M Response :=
  λ w t, (match upstream w c with
          | inl msg => inl (RequestException msg)
          | inr r => inr r
          end, t ++ [EvRequest c]).

(** ** The view *)

(** Line 26, [full_target_url]: the target without its trailing slashes,
    behind ["http://"] and in front of ["/"] and the path when the path is
    not empty, and as it stands otherwise. *)
Definition full_target_url (target path : string) : string :=
  let target_url := rstrip "/"%char target in
  if str_truthy path then "http://" +:+ target_url +:+ "/" +:+ path else target_url.

(** Line 31, [headers]: the inbound headers whose lower-cased name is not
    ['host']. *)
Definition forward_headers (req : Request) : gmap string string :=
  dict_comp (filter (λ kv, lower kv.1 ≠ "host") (headers_iter (headers req))).

(** Lines 38, 44 and 50, [files]: for every pair of [request.files.items()]
    the triple of the file's name, stream and mimetype. *)
Definition files_dict (req : Request) : gmap string FileTuple :=
  dict_comp ((λ kf, (kf.1, file_tuple kf.2)) <$> multi_items (files req)).

(** A call that passes [headers] and nothing else, as line 55 does. *)
Definition mk_call (v : Verb) (url : string) (hs : gmap string string) : Call :=
  {| c_verb := v; c_url := url; c_headers := hs;
     c_params := None; c_data := None; c_files := None; c_json := None |}.

(** Line 59: the triple handed back to Flask. *)
Definition relay (response : Response) : Reply :=
  Relay (content response) (status_code response) (r_headers response).

(** The dict [{'error': msg}] of lines 23, 57 and 61. *)
Definition error_body (msg : string) : json := JDict [("error", JStr msg)].

(** Lines 19 to 61.  The lookup, the URL, the [print] and the headers come
    before the [try]; the dispatch on the method is inside it, and so is the
    [return] of line 59, which every branch but the last one reaches with
    its [response]. *)
Definition gateway (path : string) (req : Request) : M Reply :=
  let host := headers_get "host" (headers req) in
  route ← db_find_one host ;
  match route with
  | None => mret (Jsonify (error_body "Route not found") 404)
  | Some route =>
      let url := full_target_url (target_url route) path in
      _ ← print ["full_target_url:"; url] ;
      let method := method req in
      let hs := forward_headers req in
      try_except
        (if String.eqb method "GET" then
           response ← requests_call
             {| c_verb := GET; c_url := url; c_headers := hs;
                c_params := Some (args req); c_data := None;
                c_files := None; c_json := None |} ;
           mret (relay response)
         else if String.eqb method "POST" then
           if multi_truthy (files req) then
             let fs := files_dict req in
             response ← requests_call
               {| c_verb := POST; c_url := url; c_headers := hs;
                  c_params := None; c_data := Some (form req);
                  c_files := Some fs; c_json := None |} ;
             mret (relay response)
           else
             j ← read_json req ;
             response ← requests_call
               {| c_verb := POST; c_url := url; c_headers := hs;
                  c_params := None; c_data := None;
                  c_files := None; c_json := Some j |} ;
             mret (relay response)
         else if String.eqb method "PUT" then
           if multi_truthy (files req) then
             let fs := files_dict req in
             response ← requests_call
               {| c_verb := PUT; c_url := url; c_headers := hs;
                  c_params := None; c_data := Some (form req);
                  c_files := Some fs; c_json := None |} ;
             mret (relay response)
           else
             j ← read_json req ;
             response ← requests_call
               {| c_verb := PUT; c_url := url; c_headers := hs;
                  c_params := None; c_data := None;
                  c_files := None; c_json := Some j |} ;
             mret (relay response)
         else if String.eqb method "PATCH" then
           if multi_truthy (files req) then
             let fs := files_dict req in
             response ← requests_call
               {| c_verb := PATCH; c_url := url; c_headers := hs;
                  c_params := None; c_data := Some (form req);
                  c_files := Some fs; c_json := None |} ;
             mret (relay response)
           else
             j ← read_json req ;
             response ← requests_call
               {| c_verb := PATCH; c_url := url; c_headers := hs;
                  c_params := None; c_data := None;
                  c_files := None; c_json := Some j |} ;
             mret (relay response)
         else if String.eqb method "DELETE" then
           response ← requests_call (mk_call DELETE url hs) ;
           mret (relay response)
         else
           mret (Jsonify (error_body "Method not allowed") 405))
        (λ msg, mret (Jsonify (error_body msg) 500))
  end.

(** Lines 14 to 16. *)
Definition root_gateway (req : Request) : M Reply := gateway "" req.

(** Running a view on a fresh trace. *)
Definition run {A} (m : M A) (w : World) : (exn + A) * list event := m w [].

(** ** Reading a run *)

(** The route the store holds for the request's Host header, if any. *)
Definition resolve (w : World) (req : Request) : option Route :=
  find_one (routes_collection w) (headers_get "host" (headers req)).

(** The calls to [requests] recorded in a trace, oldest first. *)
Definition requests_of (t : list event) : list Call :=
  omap (λ e, match e with EvRequest c => Some c | _ => None end) t.

(** The queries sent to the route store recorded in a trace. *)
Definition lookups_of (t : list event) : list (option string) :=
  omap (λ e, match e with EvFindOne q => Some q | _ => None end) t.

(** The methods the two URL rules of the view list. *)
Definition supported_methods : list string :=
  ["GET"; "POST"; "PUT"; "PATCH"; "DELETE"].

(** The methods that carry a body, with the function of [requests] each
    one calls. *)
Definition body_verbs : list (string * Verb) :=
  [("POST", POST); ("PUT", PUT); ("PATCH", PATCH)].

(** What the view makes of the outcome of its one call: the upstream's
    response relayed, or the 500 of the [except] clause. *)
Definition answer (w : World) (c : Call) : Reply :=
  match upstream w c with
  | inl msg => Jsonify (error_body msg) 500
  | inr response => relay response
  end.

(** The events that precede the method dispatch once a route is found. *)
Definition preamble (req : Request) (url : string) : list event :=
  [EvFindOne (headers_get "host" (headers req));
   EvPrint ["full_target_url:"; url]].

(** The same request with another outcome for [request.json]. *)
Definition with_json (j : Z + json) (req : Request) : Request :=
  {| method := method req; headers := headers req; args := args req;
     form := form req; files := files req; json_attr := j |}.

(** The multipart call of lines 39, 45 and 51. *)
Definition multipart_call (v : Verb) (url : string) (req : Request) : Call :=
  {| c_verb := v; c_url := url; c_headers := forward_headers req;
     c_params := None; c_data := Some (form req);
     c_files := Some (files_dict req); c_json := None |}.

(** The JSON call of lines 41, 47 and 53. *)
Definition json_call (v : Verb) (url : string) (req : Request) (j : json) : Call :=
  {| c_verb := v; c_url := url; c_headers := forward_headers req;
     c_params := None; c_data := None; c_files := None; c_json := Some j |}.

(** The call of line 35. *)
Definition get_call (url : string) (req : Request) : Call :=
  {| c_verb := GET; c_url := url; c_headers := forward_headers req;
     c_params := Some (args req); c_data := None; c_files := None;
     c_json := None |}.

(** The URL as section 4.2 of the specification words it: the target base
    with its trailing slashes stripped, then ["/"] and the path when the
    path is not empty. *)
Definition spec_outbound_url (target path : string) : string :=
  let target_base := rstrip "/"%char target in
  if str_truthy path then target_base +:+ "/" +:+ path else target_base.

(** ** A sample deployment *)

(** One route, stored with a trailing slash and without a scheme. *)
Definition backend_route : Route :=
  {| host_url := "api.example.test"; target_url := "backend:3000/" |}.

Definition created : Response :=
  {| content := [x7b; x7d]; status_code := 201;
     r_headers := [("Content-Type", "application/json");
                   ("Connection", "keep-alive")] |}.

(** An upstream that answers the calls whose URL has a scheme; the HTTP
    client refuses the others. *)
Definition sample_upstream (c : Call) : string + Response :=
  if String.prefix "http://" (c_url c) then inr created
  else inl "No connection adapters were found".

Definition sample_world : World :=
  {| routes_collection := [backend_route]; upstream := sample_upstream |}.

Definition sample_headers : gmap string string :=
  {[ "Host" := "api.example.test"; "Accept" := "*/*"; "X-Trace" := "7" ]}.

Definition notes_txt : FileStorage :=
  {| filename := "notes.txt"; stream := [x68; x69]; mimetype := "text/plain" |}.

Definition draft_txt : FileStorage :=
  {| filename := "draft.txt"; stream := [x6f; x6b]; mimetype := "text/plain" |}.

Definition logo_png : FileStorage :=
  {| filename := "logo.png"; stream := [x89; x50]; mimetype := "image/png" |}.

(** [GET /users?page=2]. *)
Definition get_users : Request :=
  {| method := "GET"; headers := sample_headers; args := [("page", "2")];
     form := []; files := []; json_attr := inl 415 |}.

(** [POST /users?page=2] with the JSON body [{"name": "ada"}]. *)
Definition post_user : Request :=
  {| method := "POST"; headers := sample_headers; args := [("page", "2")];
     form := []; files := [];
     json_attr := inr (JDict [("name", JStr "ada")]) |}.

(** [POST /upload] with a multipart form: a text field and three files, two
    of them under the field name [doc]. *)
Definition post_upload : Request :=
  {| method := "POST"; headers := sample_headers; args := [];
     form := [("title", "minutes")];
     files := [("doc", notes_txt); ("doc", draft_txt); ("logo", logo_png)];
     json_attr := inl 415 |}.

(** [HEAD], which Flask also hands to a view registered for [GET], for the
    registered host and for a host without a route. *)
Definition head_known : Request :=
  {| method := "HEAD"; headers := sample_headers; args := [];
     form := []; files := []; json_attr := inl 415 |}.

Definition head_unknown : Request :=
  {| method := "HEAD"; headers := {[ "Host" := "nobody.example.test" ]};
     args := []; form := []; files := []; json_attr := inl 415 |}.

(** ** Variants of a request and of a call *)

(** The same request under another method. *)
Definition with_method (m : string) (req : Request) : Request :=
  {| method := m; headers := headers req; args := args req;
     form := form req; files := files req; json_attr := json_attr req |}.

(** The same call through another function of [requests]. *)
Definition with_verb (v : Verb) (c : Call) : Call :=
  {| c_verb := v; c_url := c_url c; c_headers := c_headers c;
     c_params := c_params c; c_data := c_data c; c_files := c_files c;
     c_json := c_json c |}.

(** The same call to another URL. *)
Definition with_url (u : string) (c : Call) : Call :=
  {| c_verb := c_verb c; c_url := u; c_headers := c_headers c;
     c_params := c_params c; c_data := c_data c; c_files := c_files c;
     c_json := c_json c |}.

(** [GET /users?page=2] sent, against custom, with a multipart body and a
    JSON payload. *)
Definition get_users_with_body : Request :=
  {| method := "GET"; headers := sample_headers; args := [("page", "2")];
     form := [("title", "minutes")]; files := [("doc", notes_txt)];
     json_attr := inr (JDict [("name", JStr "ada")]) |}.

(** [POST /users?page=2] with the same JSON body as [post_user] and a form
    field beside it. *)
Definition post_user_with_form : Request :=
  {| method := "POST"; headers := sample_headers; args := [("page", "2")];
     form := [("title", "minutes")]; files := [];
     json_attr := inr (JDict [("name", JStr "ada")]) |}.

(** [POST /upload] with two files under two field names. *)
Definition post_two_fields : Request :=
  {| method := "POST"; headers := sample_headers; args := [];
     form := []; files := [("doc", notes_txt); ("logo", logo_png)];
     json_attr := inl 415 |}.

(** ** The headers of a response, from the wire to [requests] *)

(** [", ".join(vs)]. *)
Fixpoint join_comma (vs : list string) : string :=
  match vs with
  | [] => ""
  | [v] => v
  | v :: vs' => v +:+ ", " +:+ join_comma vs'
  end.

(** [response.headers.items()] for the header lines [sent] by the upstream,
    in the order they were sent.  urllib3 collects the lines in a dict keyed
    by the lower-cased name, which keeps the spelling of the first line of a
    name and reads a name as its values joined by [", "]; [requests] copies
    that dict name by name.  Header names are ASCII tokens. *)
Fixpoint headers_items (sent : list (string * string)) : list (string * string) :=
  match sent with
  | [] => []
  | (k, v) :: sent' =>
      (k, join_comma (v :: (filter (λ kv, lower kv.1 = lower k) sent').*2))
      :: filter (λ kv, lower kv.1 ≠ lower k) (headers_items sent')
  end.

(** A response that sets two cookies, each on a header line of its own. *)
Definition login_headers_sent : list (string * string) :=
  [("Content-Type", "text/plain");
   ("Set-Cookie", "sid=1");
   ("Set-Cookie", "theme=dark")].

Definition login_response : Response :=
  {| content := [x6f; x6b]; status_code := 200;
     r_headers := headers_items login_headers_sent |}.

Definition login_world : World :=
  {| routes_collection := [backend_route];
     upstream := λ _, inr login_response |}.

(** ** Containers: what a comprehension and [items()] build *)

Section dict.
Context {V : Type}.
Implicit Types (l : list (string * V)) (d : gmap string V).

Lemma foldl_insert_fresh l d k v :
  k ∉ l.*1 →
  foldl (λ d kv, <[kv.1 := kv.2]> d) (<[k := v]> d) l
  = <[k := v]> (foldl (λ d kv, <[kv.1 := kv.2]> d) d l).
Proof.
  revert d. induction l as [|[k' v'] l IH]; intros d Hk; [done|].
  rewrite fmap_cons, not_elem_of_cons in Hk. destruct Hk as [Hne Hk].
  cbn in Hne |- *. rewrite insert_insert_ne by done. by apply IH.
Qed.

(** With distinct keys the order of insertion does not matter. *)
Lemma dict_comp_list_to_map l : NoDup l.*1 → dict_comp l = list_to_map l.
Proof.
  unfold dict_comp. induction l as [|[k v] l IH]; [done|].
  rewrite fmap_cons, NoDup_cons. intros [Hk Hl]. cbn.
  rewrite foldl_insert_fresh by done. by rewrite IH.
Qed.

Lemma list_to_map_multi_get l k :
  (list_to_map l : gmap string V) !! k = multi_get k l.
Proof.
  induction l as [|[k' v] l IH]; [done|]. cbn.
  case_decide as Hk.
  - subst. apply lookup_insert_eq.
  - by rewrite lookup_insert_ne.
Qed.

Lemma multi_get_filter_ne l k k' :
  k ≠ k' → multi_get k (filter (λ kv, kv.1 ≠ k') l) = multi_get k l.
Proof.
  intros Hne. induction l as [|[k0 v] l IH]; [done|].
  rewrite filter_cons. cbn. repeat case_decide; subst; cbn;
    try case_decide; congruence.
Qed.

(** [items()] keeps, for every key, the first value it was given. *)
Lemma multi_get_items l k : multi_get k (multi_items l) = multi_get k l.
Proof.
  induction l as [|[k' v] l IH]; [done|]. cbn.
  case_decide; [done|]. by rewrite multi_get_filter_ne.
Qed.

Lemma multi_items_keys l k : k ∈ (multi_items l).*1 ↔ k ∈ l.*1.
Proof.
  induction l as [|[k' v] l IH]; [done|]. cbn.
  rewrite !elem_of_cons, <- IH, !list_elem_of_fmap.
  split.
  - intros [?|([k0 v0] & -> & [_ Hin]%list_elem_of_filter)]; [by left|].
    right. by exists (k0, v0).
  - intros [?|([k0 v0] & -> & Hin)]; [by left|].
    destruct (decide (k0 = k')) as [->|Hne]; [by left|].
    right. exists (k0, v0). split; [done|].
    apply list_elem_of_filter. by split.
Qed.

(** [items()] yields every key once. *)
Lemma multi_items_NoDup l : NoDup (multi_items l).*1.
Proof.
  induction l as [|[k v] l IH]; cbn; [constructor|].
  apply NoDup_cons. split.
  - rewrite list_elem_of_fmap. intros ([k0 v0] & Heq & [Hne _]%list_elem_of_filter).
    cbn in *. congruence.
  - refine (sublist_NoDup _ _ IH _).
    apply fmap_sublist, sublist_filter.
Qed.

Lemma multi_get_is_Some l k : is_Some (multi_get k l) ↔ k ∈ l.*1.
Proof.
  induction l as [|[k' v] l IH]; cbn.
  - rewrite elem_of_nil. split; [by intros [? ?]|done].
  - rewrite elem_of_cons. case_decide; subst.
    + split; [by left|by eexists].
    + rewrite IH. split; [by right|]. intros [?|?]; [congruence|done].
Qed.

Lemma multi_get_Some_elem l k v : multi_get k l = Some v → (k, v) ∈ l.
Proof.
  induction l as [|[k' v'] l IH]; cbn; [done|].
  case_decide; subst.
  - intros [= ->]. apply elem_of_cons. by left.
  - intros ?. apply elem_of_cons. right. by apply IH.
Qed.
End dict.

(** ** Line 31: the forwarded headers *)

Lemma forward_headers_filter req :
  forward_headers req = filter (λ kv, lower kv.1 ≠ "host") (headers req).
Proof.
  unfold forward_headers, headers_iter.
  rewrite dict_comp_list_to_map; [by rewrite <- map_filter_alt|].
  refine (sublist_NoDup _ _ (NoDup_fst_map_to_list (headers req)) _).
  apply fmap_sublist, sublist_filter.
Qed.

(** ** Lines 38, 44, 50: the [files] dict *)

Lemma multi_get_fmap {A B} (f : A → B) (l : list (string * A)) k :
  multi_get k ((λ kv, (kv.1, f kv.2)) <$> l) = f <$> multi_get k l.
Proof.
  induction l as [|[k' v] l IH]; [done|]. cbn. by case_decide.
Qed.

Lemma files_dict_lookup req k :
  files_dict req !! k = file_tuple <$> multi_get k (files req).
Proof.
  unfold files_dict. rewrite dict_comp_list_to_map.
  - by rewrite list_to_map_multi_get, multi_get_fmap, multi_get_items.
  - rewrite <- list_fmap_compose.
    erewrite list_fmap_ext; [apply multi_items_NoDup|]. by intros [].
Qed.

(** ** Line 25: [rstrip] *)

Lemma prefix_app s t : String.prefix s (s +:+ t) = true.
Proof.
  induction s as [|a s IH]; [by destruct t|].
  change (String a s +:+ t) with (String a (s +:+ t)).
  unfold String.prefix; fold String.prefix. by destruct (ascii_dec a a).
Qed.

Lemma rstrip_spec c s :
  ∃ n, s = rstrip c s +:+ str_repeat c n ∧ str_last (rstrip c s) ≠ Some c.
Proof.
  induction s as [|a s (n & Hs & Hlast)]; cbn.
  - by exists 0%nat.
  - destruct (rstrip c s) as [|b r] eqn:Hr.
    + destruct (Ascii.eqb_spec a c) as [->|Hne].
      * exists (S n). cbn in *. by rewrite Hs at 1.
      * exists n. cbn in *. split; [by rewrite Hs at 1|congruence].
    + exists n. split; [cbn in *; by rewrite Hs at 1|]. exact Hlast.
Qed.

(** ** One run of the view, branch by branch *)

(** Unfolds the view and its monad down to the pairs it computes. *)
Ltac unfold_view :=
  unfold resolve, run, gateway, root_gateway, read_json, raise,
    try_except, requests_call, print, emit, db_find_one, preamble, answer,
    get_call, multipart_call, json_call, mk_call,
    mbind, M_bind, mret, M_ret in *.

Lemma run_not_found w path req :
  resolve w req = None →
  run (gateway path req) w
  = (inr (Jsonify (error_body "Route not found") 404),
     [EvFindOne (headers_get "host" (headers req))]).
Proof. unfold_view. by intros ->. Qed.

Lemma in_body_verbs m v :
  (m, v) ∈ body_verbs ↔
  (m = "POST" ∧ v = POST) ∨ (m = "PUT" ∧ v = PUT) ∨ (m = "PATCH" ∧ v = PATCH).
Proof.
  unfold body_verbs. rewrite !elem_of_cons, elem_of_nil.
  split; [intros [?|[?|[?|[]]]]|intros [[-> ->]|[[-> ->]|[-> ->]]]];
    simplify_eq; auto.
Qed.

Lemma not_supported_eqb m :
  m ∉ supported_methods →
  String.eqb m "GET" = false ∧ String.eqb m "POST" = false ∧
  String.eqb m "PUT" = false ∧ String.eqb m "PATCH" = false ∧
  String.eqb m "DELETE" = false.
Proof.
  unfold supported_methods. rewrite !not_elem_of_cons.
  intros (? & ? & ? & ? & ? & _). by rewrite !String.eqb_neq.
Qed.

Section resolved.
Context (w : World) (path : string) (req : Request) (r : Route).
Hypothesis Hroute : resolve w req = Some r.

Let url := full_target_url (target_url r) path.

Lemma run_GET :
  method req = "GET" →
  run (gateway path req) w
  = (inr (answer w (get_call url req)),
     preamble req url ++ [EvRequest (get_call url req)]).
Proof.
  revert Hroute. subst url. unfold_view.
  intros -> ->. cbn. by destruct (upstream w _).
Qed.

Lemma run_DELETE :
  method req = "DELETE" →
  run (gateway path req) w
  = (inr (answer w (mk_call DELETE url (forward_headers req))),
     preamble req url ++ [EvRequest (mk_call DELETE url (forward_headers req))]).
Proof.
  revert Hroute. subst url. unfold_view.
  intros -> ->. cbn. by destruct (upstream w _).
Qed.

Lemma run_files v :
  (method req, v) ∈ body_verbs →
  files req ≠ [] →
  run (gateway path req) w
  = (inr (answer w (multipart_call v url req)),
     preamble req url ++ [EvRequest (multipart_call v url req)]).
Proof.
  revert Hroute. subst url. unfold_view.
  intros -> Hm%in_body_verbs Hf.
  destruct (files req) as [|f fs] eqn:Hfs; [done|].
  destruct Hm as [[-> ->]|[[-> ->]|[-> ->]]]; cbn;
    by destruct (upstream w _).
Qed.

Lemma run_json v j :
  (method req, v) ∈ body_verbs →
  files req = [] →
  json_attr req = inr j →
  run (gateway path req) w
  = (inr (answer w (json_call v url req j)),
     preamble req url ++ [EvRequest (json_call v url req j)]).
Proof.
  revert Hroute. subst url. unfold_view.
  intros -> Hm%in_body_verbs Hf Hj.
  destruct Hm as [[-> ->]|[[-> ->]|[-> ->]]]; cbn; rewrite Hf, Hj; cbn;
    by destruct (upstream w _).
Qed.

Lemma run_json_raises v code :
  (method req, v) ∈ body_verbs →
  files req = [] →
  json_attr req = inl code →
  run (gateway path req) w = (inl (HTTPException code), preamble req url).
Proof.
  revert Hroute. subst url. unfold_view.
  intros -> Hm%in_body_verbs Hf Hj.
  by destruct Hm as [[-> ->]|[[-> ->]|[-> ->]]]; cbn; rewrite Hf, Hj.
Qed.

Lemma run_other_method :
  method req ∉ supported_methods →
  run (gateway path req) w
  = (inr (Jsonify (error_body "Method not allowed") 405), preamble req url).
Proof.
  revert Hroute. subst url. unfold_view.
  intros -> (-> & -> & -> & -> & ->)%not_supported_eqb. done.
Qed.
End resolved.

Lemma requests_of_preamble req url : requests_of (preamble req url) = [].
Proof. done. Qed.

Lemma requests_of_forwarded req url c :
  requests_of (preamble req url ++ [EvRequest c]) = [c].
Proof. done. Qed.

Lemma lookups_of_preamble req url :
  lookups_of (preamble req url) = [headers_get "host" (headers req)].
Proof. done. Qed.

(** A method is one of the five of the view or it is not. *)
Lemma method_cases m :
  m = "GET" ∨ m = "DELETE" ∨ (∃ v, (m, v) ∈ body_verbs) ∨ m ∉ supported_methods.
Proof.
  destruct (decide (m = "GET")) as [->|?]; [by left|].
  destruct (decide (m = "DELETE")) as [->|?]; [by right; left|].
  destruct (decide (m = "POST")) as [->|?].
  { right; right; left. exists POST. apply in_body_verbs. auto. }
  destruct (decide (m = "PUT")) as [->|?].
  { right; right; left. exists PUT. apply in_body_verbs. auto. }
  destruct (decide (m = "PATCH")) as [->|?].
  { right; right; left. exists PATCH. apply in_body_verbs. auto. }
  do 3 right. unfold supported_methods.
  rewrite !not_elem_of_cons. repeat split; auto using not_elem_of_nil.
Qed.

Lemma body_verbs_supported m v : (m, v) ∈ body_verbs → m ∈ supported_methods.
Proof.
  intros [[-> _]|[[-> _]|[-> _]]]%in_body_verbs; unfold supported_methods;
    rewrite !elem_of_cons; auto.
Qed.

(** Whenever a call to [requests] is recorded, a route was found, the call
    is the only one of the run, it goes to the URL of line 26 with the
    headers of line 31, and the reply is made of its outcome. *)
Lemma forwarded_inv w path req c :
  c ∈ requests_of (run (gateway path req) w).2 →
  ∃ r, resolve w req = Some r ∧
       method req ∈ supported_methods ∧
       c_url c = full_target_url (target_url r) path ∧
       c_headers c = forward_headers req ∧
       run (gateway path req) w
       = (inr (answer w c),
          preamble req (full_target_url (target_url r) path) ++ [EvRequest c]).
Proof.
  destruct (resolve w req) as [r|] eqn:Hr.
  2: { rewrite run_not_found by done. cbn. by intros ?%elem_of_nil. }
  intros Hc. exists r. split; [done|]. revert Hc.
  destruct (method_cases (method req)) as [Hm|[Hm|[[v Hm]|Hm]]].
  - rewrite (run_GET _ _ _ _ Hr Hm). cbn [snd]. rewrite requests_of_forwarded.
    intros ->%list_elem_of_singleton. rewrite Hm.
    repeat split. unfold supported_methods. rewrite !elem_of_cons. auto.
  - rewrite (run_DELETE _ _ _ _ Hr Hm). cbn [snd]. rewrite requests_of_forwarded.
    intros ->%list_elem_of_singleton. rewrite Hm.
    repeat split. unfold supported_methods. rewrite !elem_of_cons. auto 6.
  - pose proof (body_verbs_supported _ _ Hm) as Hs.
    destruct (files req) as [|f fs] eqn:Hf.
    + destruct (json_attr req) as [code|j] eqn:Hj.
      * rewrite (run_json_raises _ _ _ _ Hr v code Hm Hf Hj). cbn [snd].
        rewrite requests_of_preamble. by intros ?%elem_of_nil.
      * rewrite (run_json _ _ _ _ Hr v j Hm Hf Hj). cbn [snd].
        rewrite requests_of_forwarded. by intros ->%list_elem_of_singleton.
    + assert (files req ≠ []) as Hne by (by rewrite Hf).
      rewrite (run_files _ _ _ _ Hr v Hm Hne). cbn [snd].
      rewrite requests_of_forwarded. by intros ->%list_elem_of_singleton.
  - rewrite (run_other_method _ _ _ _ Hr Hm). cbn [snd].
    rewrite requests_of_preamble. by intros ?%elem_of_nil.
Qed.

(** ** The sample deployment at work *)

Example rstrip_all_trailing : rstrip "/" "backend:3000//" = "backend:3000".
Proof. reflexivity. Qed.

Example rstrip_keeps_inner : rstrip "/" "/a/b/" = "/a/b".
Proof. reflexivity. Qed.

Example lower_mixed_case : lower "HoSt" = "host" ∧ lower "X-Trace" = "x-trace".
Proof. by split. Qed.

Example items_first_per_key :
  multi_items [("doc", 1); ("logo", 2); ("doc", 3)] = [("doc", 1); ("logo", 2)].
Proof. reflexivity. Qed.

Example sample_forward_headers :
  forward_headers get_users = {[ "Accept" := "*/*"; "X-Trace" := "7" ]}.
Proof. vm_compute. reflexivity. Qed.

Example sample_files_dict :
  files_dict post_upload
  = {[ "doc" := ("notes.txt", [x68; x69], "text/plain");
       "logo" := ("logo.png", [x89; x50], "image/png") ]}.
Proof. vm_compute. reflexivity. Qed.

(** The second file sent under [doc] is in no entry of the dict. *)
Example draft_is_not_forwarded k :
  files_dict post_upload !! k ≠ Some (file_tuple draft_txt).
Proof.
  rewrite files_dict_lookup. cbn. repeat case_decide; discriminate.
Qed.

Example run_get_users :
  run (gateway "users" get_users) sample_world
  = (inr (Relay [x7b; x7d] 201 [("Content-Type", "application/json");
                                ("Connection", "keep-alive")]),
     [EvFindOne (Some "api.example.test");
      EvPrint ["full_target_url:"; "http://backend:3000/users"];
      EvRequest (get_call "http://backend:3000/users" get_users)]).
Proof. vm_compute. reflexivity. Qed.

Example run_root :
  run (root_gateway get_users) sample_world
  = (inr (Jsonify (JDict [("error", JStr "No connection adapters were found")]) 500),
     [EvFindOne (Some "api.example.test");
      EvPrint ["full_target_url:"; "backend:3000"];
      EvRequest (get_call "backend:3000" get_users)]).
Proof. vm_compute. reflexivity. Qed.

(** A form posted without a file and without a JSON body: reading
    [request.json] raises, outside the [except] clause's reach. *)
Example run_upload_without_file :
  run (gateway "upload" (with_json (inl 415)
         {| method := "POST"; headers := sample_headers; args := [];
            form := [("title", "minutes")]; files := [];
            json_attr := inl 415 |})) sample_world
  = (inl (HTTPException 415),
     [EvFindOne (Some "api.example.test");
      EvPrint ["full_target_url:"; "http://backend:3000/upload"]]).
Proof. vm_compute. reflexivity. Qed.

(** * The claims *)

(** C3.  When the store holds no route for the request's Host header, the
    view answers 404 with the body [{"error": "Route not found"}], whatever
    the method, the path and the body are, and it calls no upstream: the
    lookup is the only thing it does. *)
Theorem unknown_host_is_404 w path req :
  resolve w req = None →
  run (gateway path req) w
  = (inr (Jsonify (JDict [("error", JStr "Route not found")]) 404),
     [EvFindOne (headers_get "host" (headers req))])
  ∧ requests_of (run (gateway path req) w).2 = [].
Proof.
  intros Hr. rewrite (run_not_found _ _ _ Hr). by split.
Qed.

Lemma unknown_host_is_404_witness :
  run (gateway "users/7" head_unknown) sample_world
  = (inr (Jsonify (JDict [("error", JStr "Route not found")]) 404),
     [EvFindOne (headers_get "host" (headers head_unknown))])
  ∧ requests_of (run (gateway "users/7" head_unknown) sample_world).2 = [].
Proof.
  apply (unknown_host_is_404 sample_world "users/7" head_unknown).
  vm_compute. reflexivity.
Defined.

(** C4.  The headers of every call sent upstream are the inbound headers
    without those whose name is [Host] in any letter case: no such name is
    among them, and every other inbound header is there with its value. *)
Theorem host_header_is_dropped w path req c :
  c ∈ requests_of (run (gateway path req) w).2 →
  c_headers c = filter (λ kv, lower kv.1 ≠ "host") (headers req)
  ∧ (∀ k, lower k = "host" → c_headers c !! k = None)
  ∧ (∀ k, lower k ≠ "host" → c_headers c !! k = headers req !! k).
Proof.
  intros (r & _ & _ & _ & -> & _)%forwarded_inv.
  rewrite forward_headers_filter. split; [done|]. split; intros k Hk.
  - apply map_lookup_filter_None. right. intros v _ Hne. by apply Hne.
  - destruct (headers req !! k) as [v|] eqn:Hv.
    + apply map_lookup_filter_Some. by split.
    + apply map_lookup_filter_None. by left.
Qed.

Lemma host_header_is_dropped_witness :
  c_headers (get_call "http://backend:3000/users" get_users)
  = filter (λ kv, lower kv.1 ≠ "host") (headers get_users)
  ∧ (∀ k, lower k = "host" →
          c_headers (get_call "http://backend:3000/users" get_users) !! k = None)
  ∧ (∀ k, lower k ≠ "host" →
          c_headers (get_call "http://backend:3000/users" get_users) !! k
          = headers get_users !! k).
Proof.
  apply (host_header_is_dropped sample_world "users" get_users).
  vm_compute. apply list_elem_of_here.
Defined.

(** C7.  When the call sent upstream raises a [RequestException], the view
    answers 500 with the JSON body [{"error": str(e)}], the text being the
    exception's own description, and that call is the only one of the run:
    nothing is retried. *)
Theorem upstream_failure_is_500 w path req c msg :
  c ∈ requests_of (run (gateway path req) w).2 →
  upstream w c = inl msg →
  (run (gateway path req) w).1
  = inr (Jsonify (JDict [("error", JStr msg)]) 500)
  ∧ requests_of (run (gateway path req) w).2 = [c].
Proof.
  intros (r & _ & _ & _ & _ & ->)%forwarded_inv Hup. cbn [fst snd].
  rewrite requests_of_forwarded. unfold answer. by rewrite Hup.
Qed.

Lemma upstream_failure_is_500_witness :
  (run (gateway "" get_users) sample_world).1
  = inr (Jsonify (JDict [("error", JStr "No connection adapters were found")]) 500)
  ∧ requests_of (run (gateway "" get_users) sample_world).2
    = [get_call "backend:3000" get_users].
Proof.
  apply (upstream_failure_is_500 sample_world "" get_users
           (get_call "backend:3000" get_users)).
  - vm_compute. apply list_elem_of_here.
  - reflexivity.
Defined.

(** Line 59, at the level of [requests]: when the call returns a response,
    the view hands back [response.content], [response.status_code] and
    [response.headers.items()] as [requests] presents them. *)
Theorem upstream_response_is_relayed w path req c response :
  c ∈ requests_of (run (gateway path req) w).2 →
  upstream w c = inr response →
  (run (gateway path req) w).1
  = inr (Relay (content response) (status_code response) (r_headers response)).
Proof.
  intros (r & _ & _ & _ & _ & ->)%forwarded_inv Hup. cbn [fst].
  unfold answer. by rewrite Hup.
Qed.

Lemma upstream_response_is_relayed_witness :
  (run (gateway "users" get_users) sample_world).1
  = inr (Relay (content created) (status_code created) (r_headers created)).
Proof.
  apply (upstream_response_is_relayed sample_world "users" get_users
           (get_call "http://backend:3000/users" get_users) created).
  - vm_compute. apply list_elem_of_here.
  - reflexivity.
Defined.

Example headers_items_joins_in_order :
  headers_items [("Content-Type", "text/plain"); ("Set-Cookie", "a=1");
                 ("X-A", "1"); ("set-cookie", "b=2"); ("SET-COOKIE", "c=3")]
  = [("Content-Type", "text/plain"); ("Set-Cookie", "a=1, b=2, c=3");
     ("X-A", "1")].
Proof. reflexivity. Qed.

(** [response.headers.items()] never names a header twice, in any letter
    case. *)
Lemma headers_items_names_NoDup sent :
  NoDup (lower <$> (headers_items sent).*1).
Proof.
  induction sent as [|[k v] sent IH]; cbn; [constructor|].
  apply NoDup_cons. split.
  - rewrite <- list_fmap_compose, list_elem_of_fmap.
    intros ([k' v'] & Heq & [Hne _]%list_elem_of_filter). cbn in *. congruence.
  - refine (sublist_NoDup _ _ IH _).
    do 2 apply fmap_sublist. apply sublist_filter.
Qed.

(** So a response that repeats a header name is never relayed as it was
    sent. *)
Lemma repeated_header_is_not_relayed_as_sent sent :
  ¬ NoDup (lower <$> sent.*1) → headers_items sent ≠ sent.
Proof.
  intros Hdup Heq. apply Hdup. rewrite <- Heq.
  apply headers_items_names_NoDup.
Qed.

(** C8 at a response with a repeated header.  The upstream answers
    [GET /users] with two [Set-Cookie] lines; the view relays one
    [Set-Cookie] header whose value is the two joined by [", "], so the
    header list the client gets is not the one the upstream sent, and the
    second cookie is no header of its own any more. *)
Theorem repeated_headers_are_relayed_merged :
  (run (gateway "users" get_users) login_world).1
  = inr (Relay [x6f; x6b] 200
           [("Content-Type", "text/plain");
            ("Set-Cookie", "sid=1, theme=dark")])
  ∧ headers_items login_headers_sent ≠ login_headers_sent
  ∧ ("Set-Cookie", "theme=dark") ∉ headers_items login_headers_sent.
Proof.
  split; [vm_compute; reflexivity|]. split.
  - apply repeated_header_is_not_relayed_as_sent. cbn.
    rewrite !NoDup_cons. intros (_ & Hdup & _). apply Hdup, list_elem_of_here.
  - compute_done.
Qed.

(** C1.  For POST, PUT and PATCH on a resolved route the body is chosen by
    one test, whether the request carries a file.  If it does, the single
    call sent upstream passes the whole form as [data] and a [files] dict
    that has an entry for exactly the field names that carry a file, each a
    triple (filename, stream, mimetype) of a file of that field; no [json]
    is passed, and what [request.json] would have given plays no part.  If
    it does not, the single call passes the parsed payload of
    [request.json] as [json] and neither [data] nor [files]; when reading
    [request.json] raises, nothing is sent. *)
Theorem body_is_multipart_or_json w path req r v :
  (method req, v) ∈ body_verbs →
  resolve w req = Some r →
  let url := full_target_url (target_url r) path in
  let sent := requests_of (run (gateway path req) w).2 in
  if multi_truthy (files req) then
    ∃ fd,
      sent = [{| c_verb := v; c_url := url; c_headers := forward_headers req;
                 c_params := None; c_data := Some (form req);
                 c_files := Some fd; c_json := None |}]
      ∧ (∀ k, is_Some (fd !! k) ↔ k ∈ (files req).*1)
      ∧ (∀ k t, fd !! k = Some t →
           ∃ f, (k, f) ∈ files req ∧ t = (filename f, stream f, mimetype f))
      ∧ (∀ j, run (gateway path (with_json j req)) w = run (gateway path req) w)
  else
    match json_attr req with
    | inr payload =>
        sent = [{| c_verb := v; c_url := url; c_headers := forward_headers req;
                   c_params := None; c_data := None;
                   c_files := None; c_json := Some payload |}]
    | inl code =>
        sent = [] ∧ (run (gateway path req) w).1 = inl (HTTPException code)
    end.
Proof.
  intros Hm Hr url sent. subst sent.
  destruct (files req) as [|kf fs] eqn:Hf; cbn [multi_truthy].
  - destruct (json_attr req) as [code|payload] eqn:Hj.
    + by rewrite (run_json_raises _ _ _ _ Hr v code Hm Hf Hj).
    + by rewrite (run_json _ _ _ _ Hr v payload Hm Hf Hj).
  - assert (files req ≠ []) as Hne by (by rewrite Hf).
    exists (files_dict req).
    rewrite (run_files _ _ _ _ Hr v Hm Hne). cbn [snd].
    rewrite requests_of_forwarded. split; [done|]. repeat split.
    + rewrite files_dict_lookup, fmap_is_Some, Hf. apply multi_get_is_Some.
    + rewrite files_dict_lookup, fmap_is_Some, Hf. apply multi_get_is_Some.
    + intros k t. rewrite files_dict_lookup, fmap_Some.
      intros (f & Hk%multi_get_Some_elem & ->). exists f. by rewrite <- Hf.
    + intros j. symmetry.
      by rewrite (run_files w path (with_json j req) r Hr v Hm Hne).
Qed.

Lemma body_is_multipart_or_json_witness :
  requests_of (run (gateway "users" post_user) sample_world).2
  = [{| c_verb := POST; c_url := "http://backend:3000/users";
        c_headers := forward_headers post_user;
        c_params := None; c_data := None; c_files := None;
        c_json := Some (JDict [("name", JStr "ada")]) |}]
  ∧ ∃ fd,
      requests_of (run (gateway "upload" post_upload) sample_world).2
      = [{| c_verb := POST; c_url := "http://backend:3000/upload";
            c_headers := forward_headers post_upload;
            c_params := None; c_data := Some [("title", "minutes")];
            c_files := Some fd; c_json := None |}]
      ∧ (∀ k, is_Some (fd !! k) ↔ k ∈ ["doc"; "doc"; "logo"])
      ∧ (∀ k t, fd !! k = Some t →
           ∃ f, (k, f) ∈ files post_upload
                ∧ t = (filename f, stream f, mimetype f))
      ∧ (∀ j, run (gateway "upload" (with_json j post_upload)) sample_world
              = run (gateway "upload" post_upload) sample_world).
Proof.
  split.
  - refine (body_is_multipart_or_json sample_world "users" post_user
              backend_route POST _ _).
    + apply list_elem_of_here.
    + reflexivity.
  - refine (body_is_multipart_or_json sample_world "upload" post_upload
              backend_route POST _ _).
    + apply list_elem_of_here.
    + reflexivity.
Defined.

(** C10.  For POST, PUT and PATCH with file attachments, the [files] dict
    of the call sent upstream holds one file per field name, and it is the
    FIRST file the request carries under that name: a later file under a
    name already seen is not forwarded. *)
Theorem first_file_of_each_field w path req r v :
  (method req, v) ∈ body_verbs →
  resolve w req = Some r →
  files req ≠ [] →
  ∃ fd,
    c_files <$> requests_of (run (gateway path req) w).2 = [Some fd]
    ∧ NoDup (map_to_list fd).*1
    ∧ ∀ k, fd !! k = file_tuple <$> multi_get k (files req).
Proof.
  intros Hm Hr Hne. exists (files_dict req).
  rewrite (run_files _ _ _ _ Hr v Hm Hne). cbn [snd].
  rewrite requests_of_forwarded. split; [done|]. split.
  - apply NoDup_fst_map_to_list.
  - apply files_dict_lookup.
Qed.

Lemma first_file_of_each_field_witness :
  ∃ fd,
    c_files <$> requests_of (run (gateway "upload" post_upload) sample_world).2
    = [Some fd]
    ∧ NoDup (map_to_list fd).*1
    ∧ ∀ k, fd !! k = file_tuple <$> multi_get k (files post_upload).
Proof.
  apply (first_file_of_each_field sample_world "upload" post_upload
           backend_route POST).
  - apply list_elem_of_here.
  - reflexivity.
  - discriminate.
Defined.

(** C2, as the code has it.  The URL of every call sent upstream is made of
    the route's target with all its trailing slashes removed: that stripped
    target alone when the path is empty, and ["http://"], the stripped
    target, ["/"] and the path otherwise. *)
Theorem outbound_url_is_built_from_target w path req c :
  c ∈ requests_of (run (gateway path req) w).2 →
  ∃ r base n,
    resolve w req = Some r
    ∧ target_url r = base +:+ str_repeat "/" n
    ∧ str_last base ≠ Some "/"%char
    ∧ c_url c = (if decide (path = "") then base
                 else "http://" +:+ base +:+ "/" +:+ path).
Proof.
  intros (r & Hr & _ & -> & _)%forwarded_inv.
  destruct (rstrip_spec "/" (target_url r)) as (n & Hn & Hlast).
  exists r, (rstrip "/" (target_url r)), n. repeat split; [done..|].
  unfold full_target_url. by destruct path.
Qed.

Lemma outbound_url_is_built_from_target_witness :
  ∃ r base n,
    resolve sample_world get_users = Some r
    ∧ target_url r = base +:+ str_repeat "/" n
    ∧ str_last base ≠ Some "/"%char
    ∧ c_url (get_call "http://backend:3000/users" get_users)
      = (if decide ("users" = "") then base
         else "http://" +:+ base +:+ "/" +:+ "users").
Proof.
  apply (outbound_url_is_built_from_target sample_world "users" get_users).
  vm_compute. apply list_elem_of_here.
Defined.

(** C2, as the specification words it, fails: a GET for [/users] on the
    sample route is sent to ["http://backend:3000/users"], whereas the
    stripped target followed by ["/"] and the path is
    ["backend:3000/users"]. *)
Lemma outbound_url_differs_from_spec :
  resolve sample_world get_users = Some backend_route
  ∧ c_url <$> requests_of (run (gateway "users" get_users) sample_world).2
    = ["http://backend:3000/users"]
  ∧ spec_outbound_url (target_url backend_route) "users" = "backend:3000/users"
  ∧ "http://backend:3000/users"
    ≠ spec_outbound_url (target_url backend_route) "users".
Proof. repeat split; [vm_compute; reflexivity..|discriminate]. Qed.

(** C9.  The scheme is handled differently with and without a path: with a
    non-empty path the URL of the call is the literal ["http://"] followed
    by the stripped target, ["/"] and the path; with the empty path it is
    the stripped target as it stands, so it begins with ["http://"] only if
    the stored target does. *)
Theorem scheme_is_added_only_with_a_path w path req c :
  c ∈ requests_of (run (gateway path req) w).2 →
  ∃ r,
    resolve w req = Some r
    ∧ (path ≠ "" →
         c_url c = "http://" +:+ rstrip "/" (target_url r) +:+ "/" +:+ path
         ∧ String.prefix "http://" (c_url c) = true)
    ∧ (path = "" →
         c_url c = rstrip "/" (target_url r)
         ∧ String.prefix "http://" (c_url c)
           = String.prefix "http://" (rstrip "/" (target_url r))).
Proof.
  intros (r & Hr & _ & -> & _)%forwarded_inv. exists r. split; [done|].
  unfold full_target_url. split.
  - intros Hp. destruct path; [done|]. cbn [str_truthy]. split; [done|].
    apply (prefix_app "http://").
  - by intros ->.
Qed.

Lemma scheme_is_added_only_with_a_path_witness :
  ∃ r,
    resolve sample_world get_users = Some r
    ∧ ("" ≠ "" →
         c_url (get_call "backend:3000" get_users)
         = "http://" +:+ rstrip "/" (target_url r) +:+ "/" +:+ ""
         ∧ String.prefix "http://" (c_url (get_call "backend:3000" get_users))
           = true)
    ∧ ("" = "" →
         c_url (get_call "backend:3000" get_users) = rstrip "/" (target_url r)
         ∧ String.prefix "http://" (c_url (get_call "backend:3000" get_users))
           = String.prefix "http://" (rstrip "/" (target_url r))).
Proof.
  apply (scheme_is_added_only_with_a_path sample_world "" get_users).
  vm_compute. apply list_elem_of_here.
Defined.

(** C5, as the code has it.  For a method outside GET, POST, PUT, PATCH and
    DELETE on a request whose Host header resolves to a route, the view
    answers 405 with the body [{"error": "Method not allowed"}] and calls no
    upstream; the route store has been queried once, with the Host header,
    before the method is looked at. *)
Theorem other_method_is_405_after_lookup w path req r :
  method req ∉ supported_methods →
  resolve w req = Some r →
  (run (gateway path req) w).1
  = inr (Jsonify (JDict [("error", JStr "Method not allowed")]) 405)
  ∧ requests_of (run (gateway path req) w).2 = []
  ∧ lookups_of (run (gateway path req) w).2
    = [headers_get "host" (headers req)].
Proof.
  intros Hm Hr. by rewrite (run_other_method _ _ _ _ Hr Hm).
Qed.

Lemma other_method_is_405_after_lookup_witness :
  (run (gateway "users" head_known) sample_world).1
  = inr (Jsonify (JDict [("error", JStr "Method not allowed")]) 405)
  ∧ requests_of (run (gateway "users" head_known) sample_world).2 = []
  ∧ lookups_of (run (gateway "users" head_known) sample_world).2
    = [headers_get "host" (headers head_known)].
Proof.
  apply (other_method_is_405_after_lookup sample_world "users" head_known
           backend_route).
  - compute_done.
  - reflexivity.
Defined.

(** C5, as the specification words it, fails on a HEAD request, which Flask
    hands to every view registered for GET: the store is queried in both
    runs, and for a host without a route the answer is the 404 of the
    lookup, not a 405. *)
Lemma other_method_queries_store_first :
  (method head_unknown ∉ supported_methods)
  ∧ run (gateway "users" head_unknown) sample_world
    = (inr (Jsonify (JDict [("error", JStr "Route not found")]) 404),
       [EvFindOne (Some "nobody.example.test")])
  ∧ lookups_of (run (gateway "users" head_known) sample_world).2
    = [Some "api.example.test"].
Proof.
  split; [compute_done|split; vm_compute; reflexivity].
Qed.

(** The query string reaches [requests] on GET only: [params] is passed at
    line 35 and at no other call. *)
Lemma params_passed_on_GET_only w path req c :
  c ∈ requests_of (run (gateway path req) w).2 →
  c_params c = (if decide (method req = "GET") then Some (args req) else None).
Proof.
  destruct (resolve w req) as [r|] eqn:Hr.
  2: { rewrite run_not_found by done. cbn. by intros ?%elem_of_nil. }
  destruct (method_cases (method req)) as [Hm|[Hm|[[v Hm]|Hm]]].
  - rewrite (run_GET _ _ _ _ Hr Hm). cbn [snd]. rewrite requests_of_forwarded.
    intros ->%list_elem_of_singleton. by rewrite Hm.
  - rewrite (run_DELETE _ _ _ _ Hr Hm). cbn [snd]. rewrite requests_of_forwarded.
    intros ->%list_elem_of_singleton. by rewrite Hm.
  - assert (method req ≠ "GET") as Hne.
    { by apply in_body_verbs in Hm as [[-> _]|[[-> _]|[-> _]]]. }
    rewrite decide_False by done.
    destruct (files req) as [|f fs] eqn:Hf.
    + destruct (json_attr req) as [code|j] eqn:Hj.
      * rewrite (run_json_raises _ _ _ _ Hr v code Hm Hf Hj). cbn [snd].
        rewrite requests_of_preamble. by intros ?%elem_of_nil.
      * rewrite (run_json _ _ _ _ Hr v j Hm Hf Hj). cbn [snd].
        rewrite requests_of_forwarded. by intros ->%list_elem_of_singleton.
    + assert (files req ≠ []) as Hfne by (by rewrite Hf).
      rewrite (run_files _ _ _ _ Hr v Hm Hfne). cbn [snd].
      rewrite requests_of_forwarded. by intros ->%list_elem_of_singleton.
  - rewrite (run_other_method _ _ _ _ Hr Hm). cbn [snd].
    rewrite requests_of_preamble. by intros ?%elem_of_nil.
Qed.

(** C6 at a POST.  [POST /users?page=2] on the sample route is sent upstream
    with no [params] at all, while the GET with the same query string is
    sent with [params=request.args]. *)
Theorem query_is_not_forwarded_on_POST :
  args post_user = [("page", "2")]
  ∧ c_params <$> requests_of (run (gateway "users" post_user) sample_world).2
    = [None]
  ∧ c_url <$> requests_of (run (gateway "users" post_user) sample_world).2
    = ["http://backend:3000/users"]
  ∧ c_params <$> requests_of (run (gateway "users" get_users) sample_world).2
    = [Some [("page", "2")]].
Proof. repeat split; vm_compute; reflexivity. Qed.

(** * Further properties of the view *)

(** ** Every run, case by case *)

(** The four ways a run can go: no route; a route and a method the view
    does not forward; a route and a [request.json] that raises; a route and
    one call, whose outcome makes the reply. *)
Lemma run_cases w path req :
  (resolve w req = None
   ∧ run (gateway path req) w
     = (inr (Jsonify (error_body "Route not found") 404),
        [EvFindOne (headers_get "host" (headers req))]))
  ∨ ∃ r, resolve w req = Some r
      ∧ (((method req ∉ supported_methods)
          ∧ run (gateway path req) w
            = (inr (Jsonify (error_body "Method not allowed") 405),
               preamble req (full_target_url (target_url r) path)))
         ∨ (∃ v code, (method req, v) ∈ body_verbs ∧ files req = []
              ∧ json_attr req = inl code
              ∧ run (gateway path req) w
                = (inl (HTTPException code),
                   preamble req (full_target_url (target_url r) path)))
         ∨ (∃ c, method req ∈ supported_methods
              ∧ c_url c = full_target_url (target_url r) path
              ∧ run (gateway path req) w
                = (inr (answer w c),
                   preamble req (full_target_url (target_url r) path)
                   ++ [EvRequest c]))).
Proof.
  destruct (resolve w req) as [r|] eqn:Hr; [right; exists r; split; [done|]|].
  2: { left. split; [done|]. by apply run_not_found. }
  set (url := full_target_url (target_url r) path).
  destruct (method_cases (method req)) as [Hm|[Hm|[[v Hm]|Hm]]].
  - right; right. exists (get_call url req).
    rewrite (run_GET _ _ _ _ Hr Hm), Hm. repeat split.
    unfold supported_methods. rewrite !elem_of_cons. auto.
  - right; right. exists (mk_call DELETE url (forward_headers req)).
    rewrite (run_DELETE _ _ _ _ Hr Hm), Hm. repeat split.
    unfold supported_methods. rewrite !elem_of_cons. auto 6.
  - pose proof (body_verbs_supported _ _ Hm) as Hs.
    destruct (files req) as [|f fs] eqn:Hf.
    + destruct (json_attr req) as [code|j] eqn:Hj.
      * right; left. exists v, code.
        by rewrite (run_json_raises _ _ _ _ Hr v code Hm Hf Hj).
      * right; right. exists (json_call v url req j).
        by rewrite (run_json _ _ _ _ Hr v j Hm Hf Hj).
    + assert (files req ≠ []) as Hne by (by rewrite Hf).
      right; right. exists (multipart_call v url req).
      by rewrite (run_files _ _ _ _ Hr v Hm Hne).
  - left. split; [done|]. by apply run_other_method.
Qed.

(** ** The shape of a trace *)

(** X1.  Whatever the request, the trace of a run has one of three shapes:
    the store lookup alone (no route); the lookup, then the [print] of the
    URL (a route, nothing sent); or the lookup, the [print] and one call,
    whose URL is the printed one.  So the store is queried exactly once and
    first, and [requests] is called at most once and last. *)
Theorem trace_has_one_of_three_shapes w path req :
  let h := headers_get "host" (headers req) in
  let t := (run (gateway path req) w).2 in
  (resolve w req = None ∧ t = [EvFindOne h])
  ∨ ∃ r url,
      resolve w req = Some r
      ∧ url = full_target_url (target_url r) path
      ∧ (t = [EvFindOne h; EvPrint ["full_target_url:"; url]]
         ∨ ∃ c, c_url c = url
                ∧ t = [EvFindOne h; EvPrint ["full_target_url:"; url];
                       EvRequest c]).
Proof.
  cbn zeta.
  destruct (run_cases w path req)
    as [[Hr ->]|(r & Hr & [[_ ->]|[(v & code & _ & _ & _ & ->)|(c & _ & Hc & ->)]])].
  - by left.
  - right. exists r, (full_target_url (target_url r) path). auto.
  - right. exists r, (full_target_url (target_url r) path). auto.
  - right. exists r, (full_target_url (target_url r) path).
    split; [done|]. split; [done|]. right. by exists c.
Qed.

(** ** Where a reply comes from *)

(** X3.  A JSON reply made by the view itself is always a dict with the
    single key [error], and its status says which stage failed: 404 only
    when the store has no route for the Host header, 405 only when a route
    was found and the method is none of the five, 500 only when the one call
    made raised, the text being that exception's. *)
Theorem error_reply_names_its_stage w path req payload status :
  (run (gateway path req) w).1 = inr (Jsonify payload status) →
  (resolve w req = None ∧ status = 404
   ∧ payload = JDict [("error", JStr "Route not found")])
  ∨ (is_Some (resolve w req) ∧ (method req ∉ supported_methods) ∧ status = 405
     ∧ payload = JDict [("error", JStr "Method not allowed")])
  ∨ (∃ c msg, requests_of (run (gateway path req) w).2 = [c]
       ∧ upstream w c = inl msg ∧ status = 500
       ∧ payload = JDict [("error", JStr msg)]).
Proof.
  destruct (run_cases w path req)
    as [[Hr ->]|(r & Hr & [[Hm ->]|[(v & code & _ & _ & _ & ->)|(c & _ & _ & ->)]])];
    cbn [fst snd]; try discriminate.
  - intros [= <- <-]. by left.
  - intros [= <- <-]. right; left. by rewrite Hr.
  - rewrite requests_of_forwarded. unfold answer.
    destruct (upstream w c) as [msg|resp] eqn:Hup; [|discriminate].
    intros [= <- <-]. right; right. by exists c, msg.
Qed.

Lemma error_reply_names_its_stage_witness :
  (resolve sample_world get_users = None ∧ 500 = 404
   ∧ JDict [("error", JStr "No connection adapters were found")]
     = JDict [("error", JStr "Route not found")])
  ∨ (is_Some (resolve sample_world get_users)
     ∧ (method get_users ∉ supported_methods) ∧ 500 = 405
     ∧ JDict [("error", JStr "No connection adapters were found")]
       = JDict [("error", JStr "Method not allowed")])
  ∨ (∃ c msg, requests_of (run (gateway "" get_users) sample_world).2 = [c]
       ∧ upstream sample_world c = inl msg ∧ 500 = 500
       ∧ JDict [("error", JStr "No connection adapters were found")]
         = JDict [("error", JStr msg)]).
Proof.
  apply (error_reply_names_its_stage sample_world "" get_users).
  vm_compute. reflexivity.
Defined.

(** X4.  A relayed reply is never made up: whenever the view returns a
    body, a status and headers of its own choosing, one call was made, it
    returned a response, and the three are that response's. *)
Theorem relayed_reply_is_an_upstream_response w path req body status hdrs :
  (run (gateway path req) w).1 = inr (Relay body status hdrs) →
  ∃ c response,
    requests_of (run (gateway path req) w).2 = [c]
    ∧ upstream w c = inr response
    ∧ body = content response
    ∧ status = status_code response
    ∧ hdrs = r_headers response.
Proof.
  destruct (run_cases w path req)
    as [[Hr ->]|(r & Hr & [[Hm ->]|[(v & code & _ & _ & _ & ->)|(c & _ & _ & ->)]])];
    cbn [fst snd]; try discriminate.
  rewrite requests_of_forwarded. unfold answer.
  destruct (upstream w c) as [msg|resp] eqn:Hup; [discriminate|].
  intros [= <- <- <-]. by exists c, resp.
Qed.

Lemma relayed_reply_is_an_upstream_response_witness :
  ∃ c response,
    requests_of (run (gateway "users" get_users) sample_world).2 = [c]
    ∧ upstream sample_world c = inr response
    ∧ [x7b; x7d] = content response
    ∧ 201 = status_code response
    ∧ [("Content-Type", "application/json"); ("Connection", "keep-alive")]
      = r_headers response.
Proof.
  apply (relayed_reply_is_an_upstream_response sample_world "users" get_users).
  vm_compute. reflexivity.
Defined.

(** ** Which route a call belongs to *)

(** X5.  A call is only ever sent to the target of a document of the
    collection whose [host_url] is, character for character, the value of
    the request's Host header. *)
Theorem call_goes_to_the_route_of_the_host w path req c :
  c ∈ requests_of (run (gateway path req) w).2 →
  ∃ r,
    r ∈ routes_collection w
    ∧ headers_get "host" (headers req) = Some (host_url r)
    ∧ c_url c = full_target_url (target_url r) path.
Proof.
  intros (r & Hr & _ & Hurl & _)%forwarded_inv. exists r.
  unfold resolve, find_one in Hr.
  destruct (headers_get "host" (headers req)) as [h|]; [|done].
  apply find_some in Hr as [Hin Hh%bool_decide_eq_true].
  split; [by apply list_elem_of_In|]. by rewrite Hh.
Qed.

Lemma call_goes_to_the_route_of_the_host_witness :
  ∃ r,
    r ∈ routes_collection sample_world
    ∧ headers_get "host" (headers get_users) = Some (host_url r)
    ∧ c_url (get_call "http://backend:3000/users" get_users)
      = full_target_url (target_url r) "users".
Proof.
  apply (call_goes_to_the_route_of_the_host sample_world "users" get_users).
  vm_compute. apply list_elem_of_here.
Defined.

(** ** The URL *)

Lemma rstrip_repeat c n : rstrip c (str_repeat c n) = "".
Proof.
  induction n as [|n IH]; [done|]. cbn. rewrite IH.
  by rewrite Ascii.eqb_refl.
Qed.

Lemma rstrip_app_repeat c s n : rstrip c (s +:+ str_repeat c n) = rstrip c s.
Proof.
  induction s as [|a s IH]; [apply rstrip_repeat|].
  change (String a s +:+ str_repeat c n) with (String a (s +:+ str_repeat c n)).
  cbn. by rewrite IH.
Qed.

Lemma str_length_app s t :
  String.length (s +:+ t) = (String.length s + String.length t)%nat.
Proof.
  induction s as [|a s IH]; [done|].
  change (String a s +:+ t) with (String a (s +:+ t)). cbn. by rewrite IH.
Qed.

Lemma str_app_cancel s t1 t2 : s +:+ t1 = s +:+ t2 → t1 = t2.
Proof.
  induction s as [|a s IH]; [done|].
  change (String a s +:+ t1) with (String a (s +:+ t1)).
  change (String a s +:+ t2) with (String a (s +:+ t2)).
  intros [= H]. by apply IH.
Qed.

(** X6.  Trailing slashes on a stored target do not matter: a target stored
    with any number of them gives the same URL, for every path, as the
    target stored without. *)
Theorem trailing_slashes_do_not_matter target n path :
  full_target_url (target +:+ str_repeat "/" n) path
  = full_target_url target path.
Proof. unfold full_target_url. by rewrite rstrip_app_repeat. Qed.

(** X7.  For one target, the URL tells the path: requests with different
    paths, the empty path included, are sent to different URLs. *)
Theorem different_paths_different_urls target path1 path2 :
  path1 ≠ path2 →
  full_target_url target path1 ≠ full_target_url target path2.
Proof.
  unfold full_target_url.
  set (base := rstrip "/" target).
  assert (∀ p, "http://" +:+ base +:+ "/" +:+ p ≠ base) as Hlonger.
  { intros p Heq. apply (f_equal String.length) in Heq.
    rewrite !str_length_app in Heq. cbn in Heq. lia. }
  intros Hne.
  destruct path1 as [|a1 p1], path2 as [|a2 p2]; cbn [str_truthy]; intros Heq.
  - done.
  - symmetry in Heq. by apply Hlonger in Heq.
  - by apply Hlonger in Heq.
  - by do 3 apply str_app_cancel in Heq.
Qed.

Lemma different_paths_different_urls_witness :
  full_target_url "backend:3000/" "users" ≠ full_target_url "backend:3000/" "".
Proof.
  apply (different_paths_different_urls "backend:3000/" "users" ""). discriminate.
Defined.

(** ** What a method does not read *)

(** X8.  On GET and on DELETE the view reads neither the form, nor the
    files, nor [request.json]: two requests of that method with the same
    headers and the same query arguments run alike, whatever body each
    carries. *)
Theorem body_is_not_read_on_GET_and_DELETE w path req1 req2 :
  method req1 = "GET" ∨ method req1 = "DELETE" →
  method req2 = method req1 →
  headers req2 = headers req1 →
  args req2 = args req1 →
  run (gateway path req2) w = run (gateway path req1) w.
Proof.
  intros Hm Hm2 Hh Ha.
  assert (resolve w req2 = resolve w req1) as Hres.
  { unfold resolve. by rewrite Hh. }
  destruct (resolve w req1) as [r|] eqn:Hr.
  2: { rewrite !run_not_found by done. by rewrite Hh. }
  destruct Hm as [Hm|Hm].
  - rewrite (run_GET _ _ _ _ Hr Hm).
    rewrite (run_GET _ _ _ _ Hres (eq_trans Hm2 Hm)).
    unfold get_call, preamble, forward_headers. by rewrite Hh, Ha.
  - rewrite (run_DELETE _ _ _ _ Hr Hm).
    rewrite (run_DELETE _ _ _ _ Hres (eq_trans Hm2 Hm)).
    unfold preamble, forward_headers. by rewrite Hh.
Qed.

Lemma body_is_not_read_on_GET_and_DELETE_witness :
  run (gateway "users" get_users_with_body) sample_world
  = run (gateway "users" get_users) sample_world.
Proof.
  apply (body_is_not_read_on_GET_and_DELETE sample_world "users"
           get_users get_users_with_body); [by left|reflexivity..].
Defined.

(** X9.  On POST, PUT and PATCH without a file the form is not read: two
    such requests with the same headers, query arguments and
    [request.json] run alike, so the fields of a form posted without a file
    never reach the upstream. *)
Theorem form_is_not_read_without_files w path req1 req2 v :
  (method req1, v) ∈ body_verbs →
  method req2 = method req1 →
  headers req2 = headers req1 →
  args req2 = args req1 →
  json_attr req2 = json_attr req1 →
  files req1 = [] →
  files req2 = [] →
  run (gateway path req2) w = run (gateway path req1) w.
Proof.
  intros Hm Hm2 Hh Ha Hj Hf1 Hf2.
  assert ((method req2, v) ∈ body_verbs) as Hm' by (by rewrite Hm2).
  assert (resolve w req2 = resolve w req1) as Hres.
  { unfold resolve. by rewrite Hh. }
  destruct (resolve w req1) as [r|] eqn:Hr.
  2: { rewrite !run_not_found by done. by rewrite Hh. }
  destruct (json_attr req1) as [code|j] eqn:Hj1.
  - rewrite (run_json_raises _ _ _ _ Hr v code Hm Hf1 Hj1).
    rewrite (run_json_raises _ _ _ _ Hres v code Hm' Hf2 Hj).
    unfold preamble. by rewrite Hh.
  - rewrite (run_json _ _ _ _ Hr v j Hm Hf1 Hj1).
    rewrite (run_json _ _ _ _ Hres v j Hm' Hf2 Hj).
    unfold json_call, preamble, forward_headers. by rewrite Hh.
Qed.

Lemma form_is_not_read_without_files_witness :
  run (gateway "users" post_user_with_form) sample_world
  = run (gateway "users" post_user) sample_world.
Proof.
  apply (form_is_not_read_without_files sample_world "users"
           post_user post_user_with_form POST);
    [apply list_elem_of_here|reflexivity..].
Defined.

(** ** The three body methods *)

(** X10.  POST, PUT and PATCH are handled alike: the same request under
    another of the three methods leads to the same calls, up to the
    function of [requests] that is called. *)
Theorem body_methods_differ_in_the_verb_only w path req v m' v' :
  (method req, v) ∈ body_verbs →
  (m', v') ∈ body_verbs →
  requests_of (run (gateway path (with_method m' req)) w).2
  = with_verb v' <$> requests_of (run (gateway path req) w).2.
Proof.
  intros Hm Hm'.
  destruct (resolve w req) as [r|] eqn:Hr.
  2: { by rewrite !run_not_found by done. }
  destruct (files req) as [|f fs] eqn:Hf.
  - destruct (json_attr req) as [code|j] eqn:Hj.
    + rewrite (run_json_raises _ _ _ _ Hr v code Hm Hf Hj).
      by rewrite (run_json_raises w path (with_method m' req) r Hr v' code Hm' Hf Hj).
    + rewrite (run_json _ _ _ _ Hr v j Hm Hf Hj).
      by rewrite (run_json w path (with_method m' req) r Hr v' j Hm' Hf Hj).
  - assert (files req ≠ []) as Hne by (by rewrite Hf).
    rewrite (run_files _ _ _ _ Hr v Hm Hne).
    by rewrite (run_files w path (with_method m' req) r Hr v' Hm' Hne).
Qed.

Lemma body_methods_differ_in_the_verb_only_witness :
  requests_of (run (gateway "upload" (with_method "PATCH" post_upload))
                 sample_world).2
  = with_verb PATCH
      <$> requests_of (run (gateway "upload" post_upload) sample_world).2.
Proof.
  apply (body_methods_differ_in_the_verb_only sample_world "upload"
           post_upload POST "PATCH" PATCH).
  - apply list_elem_of_here.
  - do 2 apply list_elem_of_further. apply list_elem_of_here.
Defined.

(** ** Files under distinct names *)

Lemma multi_get_NoDup {V} (l : list (string * V)) k v :
  NoDup l.*1 → (k, v) ∈ l → multi_get k l = Some v.
Proof.
  induction l as [|[k' v'] l IH]; [by intros _ ?%elem_of_nil|].
  rewrite fmap_cons, NoDup_cons. intros [Hk Hl] Hin. cbn.
  apply elem_of_cons in Hin as [[= -> ->]|Hin].
  - by rewrite decide_True.
  - rewrite decide_False; [by apply IH|].
    intros ->. apply Hk, list_elem_of_fmap. by exists (k, v).
Qed.

Lemma filter_keeps_all {A} (P : A → Prop) `{∀ x, Decision (P x)} (l : list A) :
  Forall P l → filter P l = l.
Proof.
  induction 1 as [|x l Hx Hl IH]; [done|].
  by rewrite filter_cons_True, IH.
Qed.

Lemma multi_items_NoDup_id {V} (l : list (string * V)) :
  NoDup l.*1 → multi_items l = l.
Proof.
  induction l as [|[k v] l IH]; [done|].
  rewrite fmap_cons, NoDup_cons. intros [Hk Hl]. cbn. rewrite IH by done.
  f_equal. apply filter_keeps_all, Forall_forall. intros [k' v'] Hin. cbn.
  intros ->. apply Hk, list_elem_of_fmap. by exists (k, v').
Qed.

(** X11.  When the files of a POST, PUT or PATCH request all have different
    field names, none is lost: every file of the request is in the [files]
    dict of the call, under its field name, and the dict has as many entries
    as the request has files. *)
Theorem distinct_fields_lose_no_file w path req r v :
  (method req, v) ∈ body_verbs →
  resolve w req = Some r →
  files req ≠ [] →
  NoDup (files req).*1 →
  ∃ fd,
    c_files <$> requests_of (run (gateway path req) w).2 = [Some fd]
    ∧ (∀ k f, (k, f) ∈ files req →
         fd !! k = Some (filename f, stream f, mimetype f))
    ∧ size fd = length (files req).
Proof.
  intros Hm Hr Hne Hnd. exists (files_dict req).
  rewrite (run_files _ _ _ _ Hr v Hm Hne). cbn [snd].
  rewrite requests_of_forwarded. split; [done|]. split.
  - intros k f Hin. rewrite files_dict_lookup.
    by rewrite (multi_get_NoDup _ _ _ Hnd Hin).
  - unfold files_dict. rewrite multi_items_NoDup_id by done.
    assert (((λ kf : string * FileStorage, (kf.1, file_tuple kf.2))
               <$> files req).*1 = (files req).*1) as Hkeys.
    { rewrite <- list_fmap_compose. by apply list_fmap_ext. }
    rewrite dict_comp_list_to_map by (by rewrite Hkeys).
    rewrite map_size_list_to_map by (by rewrite Hkeys).
    by rewrite length_fmap.
Qed.

Lemma distinct_fields_lose_no_file_witness :
  ∃ fd,
    c_files <$> requests_of (run (gateway "upload" post_two_fields) sample_world).2
    = [Some fd]
    ∧ (∀ k f, (k, f) ∈ files post_two_fields →
         fd !! k = Some (filename f, stream f, mimetype f))
    ∧ size fd = length (files post_two_fields).
Proof.
  apply (distinct_fields_lose_no_file sample_world "upload" post_two_fields
           backend_route POST).
  - apply list_elem_of_here.
  - reflexivity.
  - discriminate.
  - compute_done.
Defined.

(** ** The root rule *)

(** X12.  The path decides the URL and nothing else: the view of the root
    rule and the view of the path rule make, for the same request, the same
    calls but for their URL (the same function of [requests], headers,
    [params], [data], [files] and [json]), and none when the other makes
    none. *)
Theorem path_changes_the_url_only w path req u :
  with_url u <$> requests_of (run (gateway path req) w).2
  = with_url u <$> requests_of (run (root_gateway req) w).2.
Proof.
  unfold root_gateway.
  destruct (resolve w req) as [r|] eqn:Hr.
  2: { by rewrite !run_not_found by done. }
  destruct (method_cases (method req)) as [Hm|[Hm|[[v Hm]|Hm]]].
  - by rewrite !(run_GET _ _ _ _ Hr Hm).
  - by rewrite !(run_DELETE _ _ _ _ Hr Hm).
  - destruct (files req) as [|f fs] eqn:Hf.
    + destruct (json_attr req) as [code|j] eqn:Hj.
      * by rewrite !(run_json_raises _ _ _ _ Hr v code Hm Hf Hj).
      * by rewrite !(run_json _ _ _ _ Hr v j Hm Hf Hj).
    + assert (files req ≠ []) as Hne by (by rewrite Hf).
      by rewrite !(run_files _ _ _ _ Hr v Hm Hne).
  - by rewrite !(run_other_method _ _ _ _ Hr Hm).
Qed.
